(** * OLS fit page ([src/pages/2_fit.py]): the simulation-and-estimation routine

    The page draws a synthetic sample from a linear population model, fits
    ordinary least squares to it and hands the fit to the plotting code.
    This development embeds [gen_lin_data], [plot_ols] and the "Resample
    data" handler, and settles the properties stated about them.

    The numeric code is written once, over an interface [Scalar] of the
    arithmetic the program uses, and read at two instances:
    - [binary64], IEEE-754 double precision as specified by [SpecFloat]:
      the arithmetic the page runs in, with its rounding, signed zeros,
      infinities and NaN;
    - [R], exact real arithmetic, used only where the rounding plays no
      role (orderings, ranges, which calls raise) and for the formulas the
      page displays without running them.
    What holds of every run is stated for every instance of [Scalar]. *)

From Stdlib Require Import ZArith List Bool Lia.
From Stdlib Require Import Reals Lra Psatz.
From Stdlib Require Import Permutation.
From Stdlib Require Import SpecFloat.
Import ListNotations.

Set Implicit Arguments.

(** ** The arithmetic interface *)

Class Scalar (T : Type) : Type := {
  of_Z    : Z -> T;
  add     : T -> T -> T;
  sub     : T -> T -> T;
  mul     : T -> T -> T;
  div     : T -> T -> T;
  sqrt    : T -> T;
  eqb     : T -> T -> bool;
  leb     : T -> T -> bool;
  signbit : T -> bool
}.

Declare Scope scalar_scope.
Delimit Scope scalar_scope with s.
Infix "+" := add : scalar_scope.
Infix "-" := sub : scalar_scope.
Infix "*" := mul : scalar_scope.
Infix "/" := div : scalar_scope.

(** Exact reals.  [signbit] is the sign test [x < 0].  There is no rounding,
    no NaN and no infinity here, and division is total ([x / 0 = 0]): an
    equation between computed values that holds at this instance need not
    hold of the numbers the page computes. *)
#[export] Instance Scalar_R : Scalar R := {
  of_Z    := IZR;
  add     := Rplus;
  sub     := Rminus;
  mul     := Rmult;
  div     := Rdiv;
  sqrt    := R_sqrt.sqrt;
  eqb x y := if Req_dec_T x y then true else false;
  leb x y := if Rle_dec x y then true else false;
  signbit x := if Rlt_dec x 0 then true else false
}.

(** IEEE-754 binary64: 53 bits of precision, maximal exponent 1024. *)
Module Binary64.
Definition prec : Z := 53.
Definition emax : Z := 1024.
Definition binary64 : Type := spec_float.

Definition b64_of_Z (z : Z) : binary64 := binary_normalize prec emax z 0 false.

Definition b64_signbit (x : binary64) : bool :=
  match x with
  | S754_zero s | S754_infinity s | S754_finite s _ _ => s
  | S754_nan => false
  end.

Definition is_nan (x : binary64) : bool :=
  match x with S754_nan => true | _ => false end.

Definition is_inf (x : binary64) : bool :=
  match x with S754_infinity _ => true | _ => false end.

Definition is_zero (x : binary64) : bool :=
  match x with S754_zero _ => true | _ => false end.
End Binary64.

#[export] Instance Scalar_binary64 : Scalar Binary64.binary64 := {
  of_Z    := Binary64.b64_of_Z;
  add     := SFadd Binary64.prec Binary64.emax;
  sub     := SFsub Binary64.prec Binary64.emax;
  mul     := SFmul Binary64.prec Binary64.emax;
  div     := SFdiv Binary64.prec Binary64.emax;
  sqrt    := SFsqrt Binary64.prec Binary64.emax;
  eqb     := SFeqb;
  leb     := SFleb;
  signbit := Binary64.b64_signbit
}.

(** ** numpy arrays and the operations the page uses

    A one-dimensional array is a list; a two-dimensional array is the list of
    its rows. *)

Section Numpy.
Context {T : Type} {ST : Scalar T}.
Local Open Scope scalar_scope.

Definition vector : Type := list T.
Definition matrix : Type := list (list T).

Definition zero : T := of_Z 0.
Definition one : T := of_Z 1.

Definition of_nat (n : nat) : T := of_Z (Z.of_nat n).

(** Element-wise binary operation on arrays of the same shape. *)
Definition map2 (f : T -> T -> T) (u v : vector) : vector :=
  map (fun p => f (fst p) (snd p)) (combine u v).

(** [a ** 2] *)
Definition square (u : vector) : vector := map (fun a => a * a) u.

(** [np.sum(a)]: accumulation from the left, starting at zero.  numpy adds
    long arrays pairwise, so in [binary64] its sum of a long array can
    differ from this one in the last place. *)
Definition np_sum (u : vector) : T := fold_left add u zero.

(** [np.mean(a)] *)
Definition np_mean (u : vector) : T := np_sum u / of_nat (length u).

(** [a - c] for a scalar [c] (broadcast). *)
Definition sub_scalar (u : vector) (c : T) : vector := map (fun a => a - c) u.

(** Inner product of two one-dimensional arrays. *)
Definition inner (u v : vector) : T := np_sum (map2 mul u v).

(** [np.dot(X, b)] for a matrix [X] and a vector [b]. *)
Definition np_dot (X : matrix) (b : vector) : vector :=
  map (fun row => inner row b) X.

(** [X[:, j]] *)
Definition column (j : nat) (X : matrix) : vector :=
  map (fun row => nth j row zero) X.

(** [X.shape] *)
Definition shape (X : matrix) : Z * Z :=
  (Z.of_nat (length X),
   match X with [] => 0%Z | row :: _ => Z.of_nat (length row) end).

(** [np.column_stack((v, X))] for a one-dimensional [v] and a
    two-dimensional [X] with as many rows. *)
Definition np_column_stack (v : vector) (X : matrix) : matrix :=
  map (fun p => fst p :: snd p) (combine v X).

(** [np.column_stack((u, v))] for two one-dimensional arrays. *)
Definition np_column_stack2 (u v : vector) : matrix :=
  map (fun p => [fst p; snd p]) (combine u v).

(** [a[idx]]: indexing by an array of positions. *)
Definition take (a : vector) (idx : list nat) : vector :=
  map (fun i => nth i a zero) idx.

(** [np.argsort(a)]: the positions of [a] in ascending order of value.
    Positions are inserted one by one into a sorted list of positions, which
    keeps equal values in their original order; numpy's default sort may
    order equal values differently. *)
Fixpoint insert_index (a : vector) (i : nat) (idx : list nat) : list nat :=
  match idx with
  | [] => [i]
  | j :: rest =>
      if leb (nth i a zero) (nth j a zero) then i :: j :: rest
      else j :: insert_index a i rest
  end.

Definition np_argsort (a : vector) : list nat :=
  fold_right (insert_index a) [] (seq 0 (length a)).
End Numpy.

(** ** The libraries behind the page

    numpy's global generator and scipy's Student-t quantile are code outside
    the repository.  The page only relies on their interface: a generator
    state that [np.random.seed] replaces, two samplers that advance it, and
    the quantile function. *)

Record Library (T : Type) : Type := {
  rk_state     : Type;                      (* state of numpy's global RandomState *)
  init_by_seed : Z -> rk_state;             (* the state [np.random.seed(s)] installs *)
  rk_double    : rk_state -> T * rk_state;  (* one draw, uniform on [0, 1) *)
  rk_gauss     : rk_state -> T * rk_state;  (* one draw, standard normal *)
  t_ppf        : T -> T -> T                (* [scipy.stats.t.ppf(q, df)] *)
}.

Existing Class Library.

(** Python exceptions that reach the caller of [gen_lin_data]. *)
Inductive exn : Type := ValueError.

(** Computations that read and update the global generator and may raise. *)
Section Effects.
Context {T : Type} {L : Library T}.

Definition M (A : Type) : Type := rk_state L -> (exn + A) * rk_state L.

Definition ret {A} (a : A) : M A := fun g => (inr a, g).

Definition raise {A} (e : exn) : M A := fun g => (inl e, g).

Definition bind {A B} (m : M A) (k : A -> M B) : M B :=
  fun g =>
    match m g with
    | (inl e, g') => (inl e, g')
    | (inr a, g') => k a g'
    end.

(** [n] successive draws of a sampler. *)
Fixpoint draws (sampler : rk_state L -> T * rk_state L) (n : nat)
               (g : rk_state L) : list T * rk_state L :=
  match n with
  | O => ([], g)
  | S n' =>
      let (a, g1) := sampler g in
      let (rest, g2) := draws sampler n' g1 in
      (a :: rest, g2)
  end.

(** [rows] successive rows of [cols] draws each (row-major filling). *)
Fixpoint draw_rows (sampler : rk_state L -> T * rk_state L) (rows cols : nat)
                   (g : rk_state L) : list (list T) * rk_state L :=
  match rows with
  | O => ([], g)
  | S rows' =>
      let (r, g1) := draws sampler cols g in
      let (rest, g2) := draw_rows sampler rows' cols g1 in
      (r :: rest, g2)
  end.
End Effects.

Notation "x <- m ;; k" := (bind m (fun x => k))
  (at level 61, m at next level, right associativity).

Section NumpyRandom.
Context {T : Type} {ST : Scalar T} {L : Library T}.
Local Open Scope scalar_scope.

(** [np.random.seed(s)]: the legacy seeding accepts 0 <= s < 2**32 and
    raises ValueError otherwise. *)
Definition np_random_seed (s : Z) : M (L := L) unit :=
  fun g =>
    if ((0 <=? s) && (s <? 2 ^ 32))%Z then (inr tt, init_by_seed L s)
    else (inl ValueError, g).

(** [np.random.uniform(low, high, (rows, cols))]: each entry is
    [low + (high - low) * u] for a draw [u] on [0, 1).  A negative
    dimension raises ValueError. *)
Definition np_random_uniform (low high : T) (size : Z * Z) : M (L := L) (list (list T)) :=
  let (rows, cols) := size in
  if ((rows <? 0) || (cols <? 0))%Z then raise ValueError
  else fun g =>
    let (us, g') := draw_rows (rk_double L) (Z.to_nat rows) (Z.to_nat cols) g in
    (inr (map (map (fun u => low + (high - low) * u)) us), g').

(** [np.random.normal(loc, scale, n)]: each entry is [loc + scale * z] for
    a standard normal draw [z].  A scale with its sign bit set raises
    ValueError ("scale < 0"), and so does a negative size. *)
Definition np_random_normal (loc scale : T) (n : Z) : M (L := L) (list T) :=
  if signbit scale then raise ValueError
  else if (n <? 0)%Z then raise ValueError
  else fun g =>
    let (zs, g') := draws (rk_gauss L) (Z.to_nat n) g in
    (inr (map (fun z => loc + scale * z) zs), g').

(** [np.ones(n)] *)
Definition np_ones (n : Z) : M (L := L) (list T) :=
  if (n <? 0)%Z then raise ValueError
  else ret (repeat one (Z.to_nat n)).
End NumpyRandom.

(** ** statsmodels: [sm.OLS(y, X).fit()] and [get_prediction]

    The default fit solves least squares through the Moore-Penrose
    pseudo-inverse: [params = pinv(X) y] and
    [normalized_cov_params = pinv(X) pinv(X)'].  The page only ever passes a
    design [X] with two columns whose first column is the constant 1, and for
    such a design the pseudo-inverse has a closed form in the sums
    [n], [sum x], [sum x*x], [sum y], [sum x*y]:
    - when [n * sum x*x - (sum x)^2] is nonzero the design has rank 2 and
      the solution is the usual one;
    - otherwise every [x] equals one value [c], the design has rank 1, and
      the pseudo-inverse picks the least-squares solution of minimal norm,
      a multiple of [(1, c)].
    An empty sample is rejected with ValueError.

    statsmodels computes the pseudo-inverse from a singular value
    decomposition with a relative cut-off; the closed form below takes its
    place, with an exact test of the determinant.  In [binary64] the two
    agree up to rounding only, and on (nearly) singular designs they can
    choose different branches.  The fit is therefore used below for what it
    returns and when, not for the digits of its numbers. *)

Record RegressionResults (T : Type) : Type := {
  params                : list T;
  normalized_cov_params : list (list T);
  df_resid              : T;
  ssr                   : T;
  centered_tss          : T;
  scale                 : T;
  bse                   : list T;
  rsquared              : T
}.

Record PredictionResults (T : Type) : Type := {
  predicted_mean : list T;
  se_mean        : list T;
  pred_df        : T
}.

Section Statsmodels.
Context {T : Type} {ST : Scalar T}.
Local Open Scope scalar_scope.

(** The determinant of [X'X] for a design with rows [1, x]. *)
Definition gram_det (X : list (list T)) : T :=
  let nobs := of_nat (length X) in
  let x := column 1 X in
  nobs * np_sum (square x) - np_sum x * np_sum x.

(** [pinv(X) y] *)
Definition pinv_solve (y : list T) (X : list (list T)) : list T :=
  let nobs := of_nat (length X) in
  let x := column 1 X in
  let sx := np_sum x in
  let sxx := np_sum (square x) in
  let sy := np_sum y in
  let sxy := np_sum (map2 mul x y) in
  let det := gram_det X in
  if eqb det zero then
    let c := sx / nobs in
    let q := one + c * c in
    [sy / (nobs * q); c * (sy / (nobs * q))]
  else
    [(sxx * sy - sx * sxy) / det; (nobs * sxy - sx * sy) / det].

(** [pinv(X) pinv(X)'] *)
Definition pinv_gram (X : list (list T)) : list (list T) :=
  let nobs := of_nat (length X) in
  let x := column 1 X in
  let sx := np_sum x in
  let sxx := np_sum (square x) in
  let det := gram_det X in
  if eqb det zero then
    let c := sx / nobs in
    let q := one + c * c in
    let w := nobs * (q * q) in
    [[one / w; c / w]; [c / w; (c * c) / w]]
  else
    [[sxx / det; (zero - sx) / det]; [(zero - sx) / det; nobs / det]].

Definition matrix_rank (X : list (list T)) : T :=
  if eqb (gram_det X) zero then one else of_Z 2.

Definition fit_results (y : list T) (X : list (list T)) : RegressionResults T :=
  let beta := pinv_solve y X in
  let ncp := pinv_gram X in
  let resid := map2 sub y (np_dot X beta) in
  let ssr_ := np_sum (square resid) in
  let df := of_nat (length X) - matrix_rank X in
  let scale_ := ssr_ / df in
  let tss := np_sum (square (sub_scalar y (np_mean y))) in
  {| params := beta;
     normalized_cov_params := ncp;
     df_resid := df;
     ssr := ssr_;
     centered_tss := tss;
     scale := scale_;
     bse := [sqrt (nth 0 (nth 0 ncp []) zero * scale_);
             sqrt (nth 1 (nth 1 ncp []) zero * scale_)];
     rsquared := one - ssr_ / tss |}.

Definition sm_OLS_fit (y : list T) (X : list (list T))
  : exn + RegressionResults T :=
  match X with
  | [] => inl ValueError
  | _ :: _ => inr (fit_results y X)
  end.

(** [model.get_prediction(X)]: the fitted mean of every row and its
    standard error [sqrt(x' cov x)], with [cov = normalized_cov_params * scale]. *)
Definition get_prediction (model : RegressionResults T) (X : list (list T))
  : PredictionResults T :=
  let covb := map (map (fun a => a * scale model)) (normalized_cov_params model) in
  {| predicted_mean := np_dot X (params model);
     se_mean := map (fun row => sqrt (inner row (np_dot covb row))) X;
     pred_df := df_resid model |}.

(** [predictions.conf_int(alpha)]: [mean -/+ t.ppf(1 - alpha/2, df) * se],
    one (lower, upper) row per observation. *)
Definition conf_int (L : Library T) (p : PredictionResults T) (alpha : T)
  : list (list T) :=
  let q := t_ppf L (one - alpha / of_Z 2) (pred_df p) in
  let lower := map2 sub (predicted_mean p) (map (fun se => q * se) (se_mean p)) in
  let upper := map2 add (predicted_mean p) (map (fun se => q * se) (se_mean p)) in
  np_column_stack2 lower upper.
End Statsmodels.

(** ** [gen_lin_data] (lines 56-104) *)

(** The dictionary the routine returns, one field per key. *)
Record data (T : Type) : Type := {
  data_y     : list T;
  data_x     : list (list T);
  data_s     : T;
  data_y_hat : list T;
  data_ci    : list (list T);
  data_model : RegressionResults T
}.

Section GenLinData.
Context {T : Type} {ST : Scalar T} {L : Library T}.
Local Open Scope scalar_scope.

(** Lines 88-89: [e = y - y_hat; s = np.sqrt(np.sum(e**2) / deg_freedom)]. *)
Definition residuals (y y_hat : list T) : list T := map2 sub y y_hat.

Definition std_error (y y_hat : list T) (deg_freedom : Z) : T :=
  sqrt (np_sum (square (residuals y y_hat)) / of_Z deg_freedom).

(** Lines 92-95, the manual R squared. *)
Definition ss_tot (y : list T) : T :=
  np_sum (square (sub_scalar y (np_mean y))).

Definition ss_res (y y_hat : list T) : T :=
  np_sum (square (map2 sub y y_hat)).

Definition r_squared (y y_hat : list T) : T :=
  one - ss_res y y_hat / ss_tot y.

Definition gen_lin_data (b0 b1 sd : T) (N rseed : Z) : M (L := L) (data T) :=
  _ <- np_random_seed rseed ;;
  let K := 2%Z in
  X <- np_random_uniform (of_Z (-10)) (of_Z 10) (N, (K - 1)%Z) ;;
  ones <- np_ones N ;;
  let X := np_column_stack ones X in
  eps <- np_random_normal (of_Z 0) sd N ;;
  let y := map2 add (np_dot X [b0; b1]) eps in
  model <- (fun g => (sm_OLS_fit y X, g)) ;;
  let predictions := get_prediction model X in
  let y_hat := predicted_mean predictions in
  let y_hat_se := se_mean predictions in
  let ci := conf_int L predictions (of_Z 5 / of_Z 100) in
  let deg_freedom := (fst (shape X) - snd (shape X))%Z in
  let s := std_error y y_hat deg_freedom in
  let r_squared_manual := r_squared y y_hat in
  ret {| data_y := y;
         data_x := X;
         data_s := s;
         data_y_hat := y_hat;
         data_ci := ci;
         data_model := model |}.
End GenLinData.

(** ** A generator that replays a script

    Any stream of draws is a possible behaviour of a pseudo-random generator.
    [scripted] is the library whose generator, once seeded with [s], hands
    out the uniform draws [us s] and the normal draws [zs s] in order (and
    [dflt] once a script is exhausted); it makes the routine executable. *)

Section Scripted.
Context {T : Type}.
Variable dflt : T.
Variables us zs : Z -> list T.
Variable quantile : T -> T -> T.

Definition scripted : Library T := {|
  rk_state := list T * list T;
  init_by_seed := fun s => (us s, zs s);
  rk_double := fun g => (hd dflt (fst g), (tl (fst g), snd g));
  rk_gauss := fun g => (hd dflt (snd g), (fst g, tl (snd g)));
  t_ppf := quantile
|}.
End Scripted.

(** ** [plot_ols] (lines 147-214)

    The figure is recorded as the data handed to each drawing call.  The
    population line is disabled in the source ([include_pop = False]);
    labels, colours and axis limits carry no data. *)

Record figure (T : Type) : Type := {
  ax_scatter      : list T * list T;            (* [ax.scatter(x, y)] *)
  ax_plot         : list T * list T;            (* [ax.plot(x, y_hat)] *)
  ax_fill_between : list T * list T * list T    (* [ax.fill_between(x, lower, upper)] *)
}.

Section PlotOls.
Context {T : Type} {ST : Scalar T}.

Definition plot_ols (data_custom : data T) (b0 b1 : T) : figure T :=
  let x := column 1 (data_x data_custom) in
  let sorted_indices := np_argsort x in
  let sorted_x := take x sorted_indices in
  let sorted_ci_lower := take (column 0 (data_ci data_custom)) sorted_indices in
  let sorted_ci_upper := take (column 1 (data_ci data_custom)) sorted_indices in
  {| ax_scatter := (x, data_y data_custom);
     ax_plot := (x, data_y_hat data_custom);
     ax_fill_between := (sorted_x, sorted_ci_lower, sorted_ci_upper) |}.

(** The fitted-line dataset as a sequence of (x, y_hat) points. *)
Definition fitted_line (fig : figure T) : list (T * T) :=
  combine (fst (ax_plot fig)) (snd (ax_plot fig)).
End PlotOls.

(** ** Python's [random.randint] (CPython, Lib/random.py)

    [randint(a, b)] is [randrange(a, b + 1)], which returns
    [a + _randbelow(b + 1 - a)].  [_randbelow(n)] asks the Mersenne Twister
    for [k = n.bit_length()] bits, the top [k] bits of its next 32-bit output
    word, until the value read is below [n].  The generator is represented by
    the words it is going to produce; running out of words stands for a loop
    that has not accepted a value yet. *)

Module PyRandom.
Local Open Scope Z_scope.

Definition bit_length (n : Z) : Z := if n <=? 0 then 0 else Z.log2 n + 1.

(** [getrandbits(k)] for 0 < k <= 32, on the next output word [w]. *)
Definition getrandbits (k : Z) (w : Z) : Z := Z.shiftr (w mod 2 ^ 32) (32 - k).

Fixpoint randbelow (n : Z) (words : list Z) : option (Z * list Z) :=
  match words with
  | [] => None
  | w :: rest =>
      let r := getrandbits (bit_length n) w in
      if r <? n then Some (r, rest) else randbelow n rest
  end.

(** [randrange(start, stop)]; an empty range raises ValueError. *)
Definition randrange (start stop : Z) (words : list Z)
  : option ((exn + Z) * list Z) :=
  let width := stop - start in
  if 0 <? width then
    match randbelow width words with
    | Some (r, rest) => Some (inr (start + r), rest)
    | None => None
    end
  else Some (inl ValueError, words).

Definition randint (a b : Z) (words : list Z) : option ((exn + Z) * list Z) :=
  randrange a (b + 1) words.
End PyRandom.

(** ** The page script around the routine (lines 25, 144, 245-250)

    Every interaction re-runs the script: [random_seed = 0], the data is
    generated from the slider values, and when the "Resample data" button was
    the interaction, a new seed is drawn and the data is generated again. *)

Record session (T : Type) (L : Library T) : Type := {
  random_seed : Z;
  custom_data : exn + data T;
  py_random   : list Z;          (* words Python's generator will produce *)
  np_random   : rk_state L       (* numpy's global generator *)
}.

Section Page.
Context {T : Type} {ST : Scalar T} {L : Library T}.

Definition run_page (b0_cust b1_cust var_cust : T) (n_cust : Z)
                    (button : bool) (words : list Z) (g : rk_state L)
  : option (session L) :=
  let random_seed0 := 0%Z in
  let (custom_data0, g0) := gen_lin_data b0_cust b1_cust var_cust n_cust random_seed0 g in
  match custom_data0 with
  | inl e => Some {| random_seed := random_seed0; custom_data := inl e;
                     py_random := words; np_random := g0 |}
  | inr _ =>
      if button then
        match PyRandom.randint 0 10000 words with
        | None => None
        | Some (inl e, words') =>
            Some {| random_seed := random_seed0; custom_data := inl e;
                    py_random := words'; np_random := g0 |}
        | Some (inr seed', words') =>
            let (custom_data1, g1) :=
              gen_lin_data b0_cust b1_cust var_cust n_cust seed' g0 in
            Some {| random_seed := seed'; custom_data := custom_data1;
                    py_random := words'; np_random := g1 |}
        end
      else Some {| random_seed := random_seed0; custom_data := custom_data0;
                   py_random := words; np_random := g0 |}
  end.
End Page.

(** ** The routine as a function of its draws

    Once the generator is seeded, [gen_lin_data] is a function of the
    uniform draws [us] and the normal draws [zs] it reads. *)

Section Sample.
Context {T : Type} {ST : Scalar T} {L : Library T}.
Local Open Scope scalar_scope.

Definition regressor (u : T) : T := of_Z (-10) + (of_Z 10 - of_Z (-10)) * u.

Definition design (us : list T) : list (list T) :=
  map (fun u => [one; regressor u]) us.

(** The design with regressor values [xs]. *)
Definition rows (xs : list T) : list (list T) := map (fun x => [one; x]) xs.

Definition disturbances (sd : T) (zs : list T) : list T :=
  map (fun z => of_Z 0 + sd * z) zs.

Definition response (b0 b1 sd : T) (us zs : list T) : list T :=
  map2 add (np_dot (design us) [b0; b1]) (disturbances sd zs).

Definition bundle (model : RegressionResults T) (y : list T) (X : list (list T))
  : data T :=
  let predictions := get_prediction model X in
  {| data_y := y;
     data_x := X;
     data_s := std_error y (predicted_mean predictions)
                 (fst (shape X) - snd (shape X));
     data_y_hat := predicted_mean predictions;
     data_ci := conf_int L predictions (of_Z 5 / of_Z 100);
     data_model := model |}.

Definition of_draws (b0 b1 sd : T) (us zs : list T) : exn + data T :=
  let y := response b0 b1 sd us zs in
  match sm_OLS_fit y (design us) with
  | inl e => inl e
  | inr model => inr (bundle model y (design us))
  end.

(** The bundle for a non-empty sample. *)
Definition fitted_bundle (b0 b1 sd : T) (us zs : list T) : data T :=
  let y := response b0 b1 sd us zs in
  bundle (fit_results y (design us)) y (design us).

(** The draws the routine reads after seeding with [rseed]. *)
Definition uniform_draws (n : nat) (rseed : Z) : list T :=
  fst (draws (rk_double L) n (init_by_seed L rseed)).

Definition normal_draws (n : nat) (rseed : Z) : list T :=
  fst (draws (rk_gauss L) n
         (snd (draws (rk_double L) n (init_by_seed L rseed)))).
End Sample.

(** Sortedness of a sequence of values under the scalar comparison. *)
Section Ascending.
Context {T : Type} {ST : Scalar T}.

Fixpoint ascending (xs : list T) : bool :=
  match xs with
  | [] => true
  | a :: rest =>
      match rest with
      | [] => true
      | b :: _ => leb a b && ascending rest
      end
  end.
End Ascending.

(** ** Concrete runs in binary64

    Scripted generators over three draws each.  The quantile is a
    stand-in for [t.ppf]; nothing shown on these runs depends on it. *)

Module Demo.
Import Binary64.

Definition ratio (p q : Z) : binary64 := div (of_Z p) (of_Z q).

Definition quantile (q df : binary64) : binary64 := of_Z 2.

(** Uniform draws 3/4, 1/4, 1/2, that is regressors 5, -5, 0; normal
    draws 1, -1, 0. *)
Definition spread : Library binary64 :=
  scripted (of_Z 0)
    (fun _ => [ratio 3 4; ratio 1 4; ratio 1 2])
    (fun _ => [of_Z 1; of_Z (-1); of_Z 0])
    quantile.

(** Every uniform draw is 1/2: all regressors are 0. *)
Definition flat : Library binary64 :=
  scripted (of_Z 0)
    (fun _ => [ratio 1 2; ratio 1 2; ratio 1 2])
    (fun _ => [of_Z 1; of_Z (-1); of_Z 0])
    quantile.

(** Every normal draw is 0: no disturbance. *)
Definition still : Library binary64 :=
  scripted (of_Z 0)
    (fun _ => [ratio 3 4; ratio 1 4; ratio 1 2])
    (fun _ => [of_Z 0; of_Z 0; of_Z 0])
    quantile.


(** Every uniform draw is 1/8: all regressors are -15/2. *)
Definition level : Library binary64 :=
  scripted (of_Z 0)
    (fun _ => [ratio 1 8; ratio 1 8; ratio 1 8])
    (fun _ => [of_Z 1; of_Z (-1); of_Z 0])
    quantile.

(** Some state of the global generator before the call. *)
Definition before : list binary64 * list binary64 := ([], []).
End Demo.

(** ** The first scripted generator over the reals *)

Module DemoR.
Local Open Scope R_scope.

Definition quantile (q df : R) : R := 2.

Definition spread : Library R :=
  scripted 0 (fun _ => [3 / 4; 1 / 4; 1 / 2]) (fun _ => [1; -1; 0]) quantile.

Definition before : list R * list R := ([], []).
End DemoR.

(** ** The axes of the plot *)

Module Rendering.
Section Rendering.
Context {T : Type} {ST : Scalar T}.

(** [plot_ols], lines 207-208: [plt.xlim([-11, 11])], [plt.ylim([-50, 50])]. *)
Definition plot_xlim : T * T := (of_Z (-11), of_Z 11).
Definition plot_ylim : T * T := (of_Z (-50), of_Z 50).
End Rendering.
End Rendering.

(** ** The code shown in the "Code numpy" tabs (lines 440-453, 516-534)

    [a.dot(a)] is the inner product; [n] and [K] are Python integers, and a
    quotient of two integers raises ZeroDivisionError ([None]) when the
    divisor is 0. *)

Section Snippets.
Context {T : Type} {ST : Scalar T}.
Local Open Scope scalar_scope.

Definition snippet_SSE (e : list T) : T := inner e e.

Definition snippet_r_sq_adj (n K : Z) (r_sq : T) : option T :=
  if (n - K =? 0)%Z then None
  else Some (one - (of_Z (n - 1) / of_Z (n - K)) * (one - r_sq)).

Definition snippet_APC (e : list T) (n K : Z) : T :=
  (inner e e / of_Z n) * of_Z (n + K) / of_Z (n - K).
End Snippets.

(** The information criteria of the same tab need the logarithm and pi; they
    are read over the reals, as the formulas the page displays.  [ln] is
    total here (0 at arguments that are not positive), where [np.log(0)] is
    [-inf]. *)
Module SnippetsR.
Local Open Scope R_scope.



End SnippetsR.

(** ** The sliders (lines 118-142)

    [st.slider] returns a value between its [min_value] and [max_value]. *)

Module Sliders.
Local Open Scope R_scope.

Definition in_range (min_value max_value v : R) : Prop :=
  min_value <= v <= max_value.

(** The four slider values of one run of the script. *)
Definition slider_values (b0_cust b1_cust var_cust : R) (n_cust : Z) : Prop :=
  in_range (-10) 10 b0_cust
  /\ in_range (-5) 5 b1_cust
  /\ in_range (1 / 10) 20 var_cust
  /\ (10 <= n_cust <= 1000)%Z.
End Sliders.

(** * Properties *)

Unset Implicit Arguments.

(** ** The routine as a function of its draws *)

Section SampleFacts.
Context {T : Type} {ST : Scalar T} {L : Library T}.
Local Open Scope scalar_scope.

Lemma draws_length (sampler : rk_state L -> T * rk_state L) n g :
  length (fst (draws sampler n g)) = n.
Proof.
  revert g; induction n as [|n IH]; intro g; simpl; [reflexivity|].
  destruct (sampler g) as [a g1].
  specialize (IH g1). destruct (draws sampler n g1) as [rest g2].
  simpl in *. now rewrite IH.
Qed.

Lemma draw_rows_one (sampler : rk_state L -> T * rk_state L) n g :
  draw_rows sampler n 1 g =
  (map (fun u => [u]) (fst (draws sampler n g)), snd (draws sampler n g)).
Proof.
  revert g; induction n as [|n IH]; intro g; simpl; [reflexivity|].
  destruct (sampler g) as [a g1].
  rewrite IH. destruct (draws sampler n g1) as [rest g2]. reflexivity.
Qed.

Lemma column_stack_ones (us : list T) :
  np_column_stack (repeat one (length us))
    (map (map (fun u => of_Z (-10) + (of_Z 10 - of_Z (-10)) * u))
         (map (fun u => [u]) us))
  = design us.
Proof.
  unfold np_column_stack, design.
  induction us as [|u us IH]; simpl; [reflexivity|].
  now rewrite IH.
Qed.

Lemma uniform_draws_length n rseed : length (uniform_draws n rseed) = n.
Proof. apply draws_length. Qed.

Lemma normal_draws_length n rseed : length (normal_draws n rseed) = n.
Proof. apply draws_length. Qed.

(** On accepted arguments the routine is [of_draws] at the draws that
    follow the seed; the state it was called in plays no role. *)
Lemma gen_lin_data_of_draws b0 b1 sd N rseed g :
  (0 <= rseed < 2 ^ 32)%Z -> (0 <= N)%Z -> signbit sd = false ->
  fst (gen_lin_data b0 b1 sd N rseed g)
  = of_draws b0 b1 sd (uniform_draws (Z.to_nat N) rseed)
                      (normal_draws (Z.to_nat N) rseed).
Proof.
  intros Hseed HN Hsd.
  unfold gen_lin_data, bind, np_random_seed.
  replace ((0 <=? rseed) && (rseed <? 2 ^ 32))%Z%bool with true
    by (symmetry; apply andb_true_iff; split;
        [apply Z.leb_le | apply Z.ltb_lt]; lia).
  unfold np_random_uniform.
  replace ((N <? 0) || (2 - 1 <? 0))%Z%bool with false
    by (symmetry; apply orb_false_iff; split; apply Z.ltb_ge; lia).
  change (Z.to_nat (2 - 1)) with 1%nat.
  rewrite draw_rows_one.
  unfold np_ones, np_random_normal. rewrite Hsd.
  replace (N <? 0)%Z with false by (symmetry; apply Z.ltb_ge; lia).
  unfold ret, uniform_draws, normal_draws, of_draws, response, disturbances.
  set (n := Z.to_nat N).
  pose proof (draws_length (rk_double L) n (init_by_seed L rseed)) as Hlen.
  destruct (draws (rk_double L) n (init_by_seed L rseed)) as [us g1].
  simpl in Hlen. simpl fst. simpl snd.
  destruct (draws (rk_gauss L) n g1) as [zs g2]. simpl fst.
  clearbody n. subst n. rewrite column_stack_ones. cbv beta.
  destruct (sm_OLS_fit _ _) as [e|model]; reflexivity.
Qed.
End SampleFacts.

(** ** Determinism and argument checks *)

Section Generic.
Context {T : Type} {ST : Scalar T} {L : Library T}.
Local Open Scope scalar_scope.

Lemma seed_rejected b0 b1 sd N rseed g :
  ((0 <=? rseed) && (rseed <? 2 ^ 32))%Z = false ->
  gen_lin_data b0 b1 sd N rseed g = (inl ValueError, g).
Proof.
  intros H. unfold gen_lin_data, bind, np_random_seed. now rewrite H.
Qed.

Lemma seed_accepted b0 b1 sd N rseed g g' :
  ((0 <=? rseed) && (rseed <? 2 ^ 32))%Z = true ->
  gen_lin_data b0 b1 sd N rseed g = gen_lin_data b0 b1 sd N rseed g'.
Proof.
  intros H. unfold gen_lin_data, bind, np_random_seed. now rewrite H.
Qed.

(** The state the generator is in before the call does not matter. *)
Lemma gen_lin_data_any_state (b0 b1 sd : T) (N rseed : Z) (g1 g2 : rk_state L) :
  fst (gen_lin_data b0 b1 sd N rseed g1) = fst (gen_lin_data b0 b1 sd N rseed g2).
Proof.
  destruct ((0 <=? rseed) && (rseed <? 2 ^ 32))%Z eqn:Hseed.
  - now rewrite (seed_accepted b0 b1 sd N rseed g1 g2 Hseed).
  - now rewrite !seed_rejected.
Qed.

Lemma negative_size_rejected (b0 b1 sd : T) (N rseed : Z) (g : rk_state L) :
  (0 <= rseed < 2 ^ 32)%Z -> (N < 0)%Z ->
  fst (gen_lin_data b0 b1 sd N rseed g) = inl ValueError.
Proof.
  intros Hseed HN.
  assert (Hs : ((0 <=? rseed) && (rseed <? 2 ^ 32))%Z = true)
    by (apply andb_true_iff; split; [apply Z.leb_le | apply Z.ltb_lt]; lia).
  unfold gen_lin_data, bind, np_random_seed. rewrite Hs.
  unfold np_random_uniform.
  replace (N <? 0)%Z with true by (symmetry; apply Z.ltb_lt; lia).
  reflexivity.
Qed.

Lemma negative_scale_rejected (b0 b1 sd : T) (N rseed : Z) (g : rk_state L) :
  (0 <= rseed < 2 ^ 32)%Z -> signbit sd = true ->
  fst (gen_lin_data b0 b1 sd N rseed g) = inl ValueError.
Proof.
  intros Hseed Hsd.
  assert (Hs : ((0 <=? rseed) && (rseed <? 2 ^ 32))%Z = true)
    by (apply andb_true_iff; split; [apply Z.leb_le | apply Z.ltb_lt]; lia).
  unfold gen_lin_data, bind, np_random_seed. rewrite Hs.
  unfold np_random_uniform.
  destruct ((N <? 0) || (2 - 1 <? 0))%Z eqn:HN; [reflexivity|].
  apply orb_false_iff in HN. destruct HN as [HN _].
  destruct (draw_rows _ _ _ _) as [us g1].
  unfold np_ones. rewrite HN. unfold ret.
  unfold np_random_normal. rewrite Hsd. reflexivity.
Qed.

Lemma of_draws_fitted b0 b1 sd (us zs : list T) :
  us <> [] ->
  of_draws (L := L) b0 b1 sd us zs = inr (fitted_bundle b0 b1 sd us zs).
Proof.
  intros Hus. unfold of_draws, fitted_bundle, sm_OLS_fit. cbv zeta.
  destruct us as [|u us]; [congruence | reflexivity].
Qed.

Lemma gen_lin_data_returns (b0 b1 sd : T) (N rseed : Z) (g : rk_state L) :
  (1 <= N)%Z -> (0 <= rseed < 2 ^ 32)%Z -> signbit sd = false ->
  fst (gen_lin_data b0 b1 sd N rseed g)
  = inr (fitted_bundle b0 b1 sd (uniform_draws (Z.to_nat N) rseed)
                                (normal_draws (Z.to_nat N) rseed)).
Proof.
  intros HN Hseed Hsd.
  rewrite gen_lin_data_of_draws by (try assumption; lia).
  apply of_draws_fitted. intros Hnil.
  pose proof (uniform_draws_length (L := L) (Z.to_nat N) rseed) as Hlen.
  rewrite Hnil in Hlen. simpl in Hlen. lia.
Qed.

Lemma gen_lin_data_returned (b0 b1 sd : T) (N rseed : Z) (g : rk_state L)
                            (d : data T) :
  fst (gen_lin_data b0 b1 sd N rseed g) = inr d ->
  (1 <= N)%Z /\ (0 <= rseed < 2 ^ 32)%Z /\ signbit sd = false
  /\ d = fitted_bundle b0 b1 sd (uniform_draws (Z.to_nat N) rseed)
                                (normal_draws (Z.to_nat N) rseed).
Proof.
  intros Hd.
  destruct ((0 <=? rseed) && (rseed <? 2 ^ 32))%Z eqn:Hs.
  2:{ rewrite seed_rejected in Hd by exact Hs. discriminate. }
  apply andb_true_iff in Hs. destruct Hs as [Hs1 Hs2].
  apply Z.leb_le in Hs1. apply Z.ltb_lt in Hs2.
  assert (Hseed : (0 <= rseed < 2 ^ 32)%Z) by lia.
  destruct (signbit sd) eqn:Hsd.
  { rewrite negative_scale_rejected in Hd by assumption. discriminate. }
  destruct (Z_lt_le_dec N 0) as [HN|HN].
  { rewrite negative_size_rejected in Hd by assumption. discriminate. }
  destruct (Z.eq_dec N 0) as [H0|H0].
  { subst N. rewrite gen_lin_data_of_draws in Hd by (try assumption; lia).
    discriminate. }
  assert (H1 : (1 <= N)%Z) by lia.
  rewrite gen_lin_data_returns in Hd by assumption.
  injection Hd as <-. repeat split; assumption || lia.
Qed.

(** C1. Two invocations of [gen_lin_data] with identical arguments return
    identical results, whatever state the global generator is in when each
    starts; in particular a second call made right after the first, on the
    state the first left behind, returns what the first returned. *)
Theorem gen_lin_data_deterministic (b0 b1 sd : T) (N rseed : Z)
                                   (g g' : rk_state L) :
  fst (gen_lin_data b0 b1 sd N rseed g) = fst (gen_lin_data b0 b1 sd N rseed g')
  /\ fst (gen_lin_data b0 b1 sd N rseed
            (snd (gen_lin_data b0 b1 sd N rseed g)))
     = fst (gen_lin_data b0 b1 sd N rseed g).
Proof. split; apply gen_lin_data_any_state. Qed.

(** C2 (as the code behaves). The routine has no checks of its own.  With
    an accepted seed, numpy rejects a negative sample size and a negative
    standard deviation with ValueError, and every call with a sample size
    of at least 1 (1 and 2 included) and a standard deviation that is not
    negative (0 included) returns a bundle. *)
Theorem gen_lin_data_validation (b0 b1 sd : T) (N rseed : Z) (g : rk_state L) :
  (0 <= rseed < 2 ^ 32)%Z ->
  ((N < 0)%Z -> fst (gen_lin_data b0 b1 sd N rseed g) = inl ValueError)
  /\ (signbit sd = true ->
      fst (gen_lin_data b0 b1 sd N rseed g) = inl ValueError)
  /\ ((1 <= N)%Z -> signbit sd = false ->
      exists d, fst (gen_lin_data b0 b1 sd N rseed g) = inr d).
Proof.
  intros Hseed. split; [|split].
  - intros HN. now apply negative_size_rejected.
  - intros Hsd. now apply negative_scale_rejected.
  - intros HN Hsd. eexists. now apply gen_lin_data_returns.
Qed.

End Generic.

(** Two observations, seed 7, standard deviation 0: a bundle is returned. *)
Lemma gen_lin_data_validation_witness :
  (0 <= 7 < 2 ^ 32)%Z
  /\ exists d, fst (gen_lin_data (L := Demo.spread) (of_Z 1) (of_Z 2) (of_Z 0)
                      2 7 Demo.before) = inr d.
Proof.
  split; [lia|].
  apply (gen_lin_data_validation (L := Demo.spread)
           (of_Z 1) (of_Z 2) (of_Z 0) 2 7 Demo.before);
    [lia | lia | reflexivity].
Defined.

(** C2, counterexample. With two observations (fewer than three), zero
    population coefficients and no disturbance, the routine does not fail:
    it returns a bundle whose residual standard error is sqrt(0/0), NaN.
    With a standard deviation of 0 it does not fail either. *)
Lemma gen_lin_data_unvalidated :
  (exists d,
      fst (gen_lin_data (L := Demo.still) (of_Z 0) (of_Z 0) (of_Z 1) 2 0
             Demo.before) = inr d
      /\ data_s d = S754_nan)
  /\ (exists d,
      fst (gen_lin_data (L := Demo.spread) (of_Z 1) (of_Z 2) (of_Z 0) 3 0
             Demo.before) = inr d).
Proof.
  split.
  - eexists. split; [vm_compute; reflexivity | vm_compute; reflexivity].
  - eexists. vm_compute. reflexivity.
Qed.

(** ** Shapes *)

Section Shapes.
Context {T : Type} {ST : Scalar T} {L : Library T}.

Lemma map2_length (f : T -> T -> T) (u v : list T) :
  length (map2 f u v) = Nat.min (length u) (length v).
Proof. unfold map2. now rewrite length_map, length_combine. Qed.

Lemma np_dot_length (X : list (list T)) (b : list T) :
  length (np_dot X b) = length X.
Proof. apply length_map. Qed.

Lemma design_length (us : list T) : length (design us) = length us.
Proof. apply length_map. Qed.

Lemma response_length b0 b1 sd (us zs : list T) :
  length zs = length us -> length (response b0 b1 sd us zs) = length us.
Proof.
  intros H. unfold response, disturbances.
  rewrite map2_length, np_dot_length, design_length, length_map, H.
  apply Nat.min_id.
Qed.

Lemma conf_int_shape (p : PredictionResults T) (alpha : T) :
  length (conf_int L p alpha)
  = Nat.min (length (predicted_mean p)) (length (se_mean p))
  /\ Forall (fun row => length row = 2%nat) (conf_int L p alpha).
Proof.
  unfold conf_int, np_column_stack2. split.
  - rewrite length_map, length_combine, !map2_length, length_map. lia.
  - apply Forall_forall. intros row Hin.
    apply in_map_iff in Hin. destruct Hin as [pr [<- _]]. reflexivity.
Qed.

Lemma fitted_bundle_shapes b0 b1 sd (us zs : list T) :
  us <> [] -> length zs = length us ->
  let d := fitted_bundle (L := L) b0 b1 sd us zs in
  length (data_y d) = length us
  /\ length (data_y_hat d) = length us
  /\ length (data_ci d) = length us
  /\ Forall (fun row => length row = 2%nat) (data_ci d)
  /\ shape (data_x d) = (Z.of_nat (length us), 2%Z)
  /\ Forall (fun row => length row = 2%nat /\ nth 0 row zero = one) (data_x d).
Proof.
  intros Hne Hlen. cbv zeta.
  unfold fitted_bundle, bundle; cbn [data_y data_y_hat data_ci data_x].
  set (y := response b0 b1 sd us zs).
  set (model := fit_results y (design us)).
  destruct (conf_int_shape (get_prediction model (design us))
              (div (of_Z 5) (of_Z 100))) as [Hci Hrows].
  assert (Hmin : Nat.min
                   (length (predicted_mean (get_prediction model (design us))))
                   (length (se_mean (get_prediction model (design us))))
                 = length us).
  { unfold get_prediction; cbn [predicted_mean se_mean].
    rewrite np_dot_length, length_map, !design_length. apply Nat.min_id. }
  rewrite Hmin in Hci.
  split; [now apply response_length|].
  split; [unfold get_prediction; cbn [predicted_mean];
          now rewrite np_dot_length, design_length|].
  split; [exact Hci|]. split; [exact Hrows|]. split.
  - unfold shape. rewrite design_length.
    destruct us as [|u us']; [congruence | reflexivity].
  - apply Forall_forall. intros row Hin.
    apply in_map_iff in Hin. destruct Hin as [u [<- _]]. split; reflexivity.
Qed.

(** The residual standard error of a returned bundle is
    [sqrt(sum e_i^2 / (N - 2))] in every arithmetic. *)
Lemma fitted_bundle_std_error b0 b1 sd (us zs : list T) :
  us <> [] ->
  let d := fitted_bundle (L := L) b0 b1 sd us zs in
  data_s d
  = sqrt (div (np_sum (square (residuals (data_y d) (data_y_hat d))))
              (of_Z (Z.of_nat (length us) - 2))).
Proof.
  intros Hne. cbv zeta.
  unfold fitted_bundle, bundle, std_error; cbn [data_s data_y data_y_hat].
  unfold shape. rewrite design_length.
  destruct us as [|u us']; [congruence | reflexivity].
Qed.

(** C10. For every sample size N >= 1, every bundle the routine returns is
    shape-consistent: the response and the fitted values have N entries, the
    confidence-interval array has N rows of two entries (lower, upper), and
    the design matrix has N rows and 2 columns, the first column being 1
    throughout.  A bundle is returned whenever numpy accepts the seed and
    the standard deviation. *)
Theorem gen_lin_data_shapes (b0 b1 sd : T) (N rseed : Z) (g : rk_state L) :
  (1 <= N)%Z ->
  (forall d,
      fst (gen_lin_data b0 b1 sd N rseed g) = inr d ->
      Z.of_nat (length (data_y d)) = N
      /\ Z.of_nat (length (data_y_hat d)) = N
      /\ Z.of_nat (length (data_ci d)) = N
      /\ Forall (fun row => length row = 2%nat) (data_ci d)
      /\ shape (data_x d) = (N, 2%Z)
      /\ Forall (fun row => length row = 2%nat /\ nth 0 row zero = one)
                (data_x d))
  /\ ((0 <= rseed < 2 ^ 32)%Z -> signbit sd = false ->
      exists d, fst (gen_lin_data b0 b1 sd N rseed g) = inr d).
Proof.
  intros HN. split.
  - intros d Hd. apply gen_lin_data_returned in Hd.
    destruct Hd as [_ [_ [_ ->]]].
    pose proof (uniform_draws_length (L := L) (Z.to_nat N) rseed) as Hus.
    pose proof (normal_draws_length (L := L) (Z.to_nat N) rseed) as Hzs.
    destruct (fitted_bundle_shapes b0 b1 sd
                (uniform_draws (Z.to_nat N) rseed)
                (normal_draws (Z.to_nat N) rseed))
      as [H1 [H2 [H3 [H4 [H5 H6]]]]].
    { intros Hnil. rewrite Hnil in Hus. simpl in Hus. lia. }
    { congruence. }
    rewrite H1, H2, H3, H5, Hus, Z2Nat.id by lia.
    repeat split; assumption.
  - intros Hseed Hsd. eexists. now apply gen_lin_data_returns.
Qed.
End Shapes.

(** Three observations, seed 0: a bundle is returned. *)
Lemma gen_lin_data_shapes_witness :
  exists d,
    fst (gen_lin_data (L := Demo.spread) (of_Z 1) (of_Z 2) (of_Z 1) 3 0
           Demo.before) = inr d.
Proof.
  apply (gen_lin_data_shapes (L := Demo.spread)
           (of_Z 1) (of_Z 2) (of_Z 1) 3 0 Demo.before);
    [lia | lia | reflexivity].
Defined.

(** ** The resample action *)

Module PyRandomFacts.
Import PyRandom.
Local Open Scope Z_scope.

Lemma getrandbits_nonneg k w : 0 <= getrandbits k w.
Proof.
  unfold getrandbits. apply Z.shiftr_nonneg.
  apply Z.mod_pos_bound. reflexivity.
Qed.

Lemma randbelow_range n words r rest :
  randbelow n words = Some (r, rest) -> 0 <= r < n.
Proof.
  induction words as [|w words IH]; simpl; [discriminate|].
  destruct (getrandbits (bit_length n) w <? n) eqn:Hlt.
  - intros H. injection H as <- _. split.
    + apply getrandbits_nonneg.
    + now apply Z.ltb_lt.
  - exact IH.
Qed.

(** The loop stops at the first word it accepts. *)
Lemma randbelow_returns n words :
  Exists (fun w => getrandbits (bit_length n) w < n) words ->
  exists r rest, randbelow n words = Some (r, rest).
Proof.
  induction 1 as [w words Hw | w words _ IH]; simpl.
  - apply Z.ltb_lt in Hw. rewrite Hw. eauto.
  - destruct (getrandbits (bit_length n) w <? n); eauto.
Qed.

Lemma randint_range a b words s rest :
  randint a b words = Some (inr s, rest) -> a <= s <= b.
Proof.
  unfold randint, randrange.
  destruct (0 <? b + 1 - a); [|discriminate].
  destruct (randbelow (b + 1 - a) words) as [[r rest']|] eqn:Hr; [|discriminate].
  intros H. injection H as <- _.
  apply randbelow_range in Hr. lia.
Qed.

Lemma randint_never_raises words e rest :
  randint 0 10000 words <> Some (inl e, rest).
Proof.
  unfold randint, randrange. change (0 <? 10000 + 1 - 0) with true. cbv iota.
  destruct (randbelow _ _) as [[r rest']|]; discriminate.
Qed.

(** Among the 32-bit words, those read as [s] are the 2^18 words from
    [s * 2^18] up to [(s + 1) * 2^18]: every value is as likely as any other. *)
Lemma getrandbits_preimage s w :
  0 <= w < 2 ^ 32 ->
  getrandbits 14 w = s <-> s * 2 ^ 18 <= w < (s + 1) * 2 ^ 18.
Proof.
  intros Hw. unfold getrandbits.
  rewrite Z.mod_small by lia.
  change (32 - 14) with 18.
  rewrite Z.shiftr_div_pow2 by lia.
  change (2 ^ 18) with 262144.
  pose proof (Z.div_mod w 262144 ltac:(lia)) as Hdiv.
  pose proof (Z.mod_pos_bound w 262144 ltac:(lia)) as Hmod.
  split; intros H; [subst s; lia | nia].
Qed.

End PyRandomFacts.

Section Resample.
Context {T : Type} {ST : Scalar T} {L : Library T}.

(** C5 (as the code behaves). On every activation of the resample button
    that completes, the new seed s lies in the closed range 0 <= s <= 10000
    and the data shown is the result of the routine at the same slider
    values and the new seed.  The draw completes as soon as the generator
    produces a word whose top 14 bits are below 10001, and the seed is then
    those 14 bits; each value of the closed range, 10000 included, is read
    from exactly the 2^18 words [s * 2^18 .. (s + 1) * 2^18 - 1], so the
    draw is uniform on the closed range. *)
Theorem resample_seed_range (b0_cust b1_cust var_cust : T) (n_cust : Z)
                            (g : rk_state L) (d0 : data T) :
  fst (gen_lin_data b0_cust b1_cust var_cust n_cust 0 g) = inr d0 ->
  (forall words w,
      run_page b0_cust b1_cust var_cust n_cust true words g = Some w ->
      (0 <= random_seed w <= 10000)%Z
      /\ custom_data w
         = fst (gen_lin_data b0_cust b1_cust var_cust n_cust (random_seed w) g))
  /\ (forall words,
      Exists (fun w => (PyRandom.getrandbits 14 w < 10001)%Z) words ->
      exists w, run_page b0_cust b1_cust var_cust n_cust true words g = Some w)
  /\ (forall word rest,
      (PyRandom.getrandbits 14 word < 10001)%Z ->
      exists w,
        run_page b0_cust b1_cust var_cust n_cust true (word :: rest) g = Some w
        /\ random_seed w = PyRandom.getrandbits 14 word)
  /\ (forall s word, (0 <= word < 2 ^ 32)%Z ->
      PyRandom.getrandbits 14 word = s
      <-> (s * 2 ^ 18 <= word < (s + 1) * 2 ^ 18)%Z).
Proof.
  intros Hd0. unfold run_page.
  destruct (gen_lin_data b0_cust b1_cust var_cust n_cust 0 g) as [r0 g0] eqn:H0.
  simpl in Hd0. subst r0.
  split; [|split; [|split]].
  - intros words w H.
    destruct (PyRandom.randint 0 10000 words) as [[[e|s] words']|] eqn:Hr;
      [ now apply PyRandomFacts.randint_never_raises in Hr | | discriminate ].
    destruct (gen_lin_data b0_cust b1_cust var_cust n_cust s g0) as [r1 g1] eqn:H1.
    inversion H; subst; cbn [random_seed custom_data].
    split; [now apply PyRandomFacts.randint_range in Hr|].
    rewrite <- (gen_lin_data_any_state b0_cust b1_cust var_cust n_cust s g0 g).
    rewrite H1. reflexivity.
  - intros words Hw.
    change 14%Z with (PyRandom.bit_length 10001) in Hw.
    apply (PyRandomFacts.randbelow_returns 10001) in Hw.
    destruct Hw as [r [rest Hr]].
    unfold PyRandom.randint, PyRandom.randrange.
    change (0 <? 10000 + 1 - 0)%Z with true. cbv iota.
    change (10000 + 1 - 0)%Z with 10001%Z. rewrite Hr.
    destruct (gen_lin_data b0_cust b1_cust var_cust n_cust (0 + r) g0) as [r1 g1].
    eauto.
  - intros word rest Hw.
    unfold PyRandom.randint, PyRandom.randrange.
    change (0 <? 10000 + 1 - 0)%Z with true. cbv iota.
    change (10000 + 1 - 0)%Z with 10001%Z.
    unfold PyRandom.randbelow. change (PyRandom.bit_length 10001) with 14%Z.
    apply Z.ltb_lt in Hw. rewrite Hw.
    destruct (gen_lin_data b0_cust b1_cust var_cust n_cust
                (0 + PyRandom.getrandbits 14 word) g0) as [r1 g1].
    eexists. split; reflexivity.
  - apply PyRandomFacts.getrandbits_preimage.
Qed.
End Resample.

(** The page at three observations: the word 4242 * 2^18 gives seed 4242. *)
Lemma resample_seed_range_witness :
  exists w,
    run_page (L := Demo.spread) (of_Z 1) (of_Z 2) (of_Z 1) 3 true
      [1112014848%Z] Demo.before = Some w
    /\ random_seed w = PyRandom.getrandbits 14 1112014848.
Proof.
  eapply (resample_seed_range (L := Demo.spread)
            (of_Z 1) (of_Z 2) (of_Z 1) 3 Demo.before).
  - vm_compute. reflexivity.
  - vm_compute. reflexivity.
Defined.

(** C5, counterexample. When the generator's next word is 10000 * 2^18, the
    seed drawn by the resample action is 10000, outside [0, 10000). *)
Lemma resample_seed_reaches_10000 :
  exists w,
    run_page (L := Demo.spread) (of_Z 1) (of_Z 2) (of_Z 1) 3 true
      [2621440000%Z] Demo.before = Some w
    /\ random_seed w = 10000%Z
    /\ ~ (0 <= random_seed w < 10000)%Z.
Proof.
  eexists. split; [vm_compute; reflexivity|].
  split; [reflexivity | cbn; lia].
Qed.

(** ** R squared without variation in the response (binary64) *)

Module ZeroVariation.
Import Binary64.

Lemma one_b64 : @one binary64 _ = S754_finite false 4503599627370496 (-52).
Proof. reflexivity. Qed.

(** Dividing by a zero never gives a finite number, and subtracting the
    quotient from 1 keeps it NaN or infinite. *)
Lemma one_minus_ratio_by_zero (a z : binary64) :
  is_zero z = true ->
  (is_zero a = true \/ is_nan a = true -> is_nan (sub one (div a z)) = true)
  /\ (is_nan (sub one (div a z)) || is_inf (sub one (div a z)) = true).
Proof.
  intros Hz. rewrite one_b64.
  destruct z as [sz| | |]; try discriminate.
  destruct a as [sa|sa| |sa ma ea]; cbn; split;
    try reflexivity; intros [H|H]; discriminate.
Qed.

(** C3 (as the code behaves). Whenever the total variation of the response
    is zero, the R squared the code computes, 1 - ss_res / ss_tot, is not
    0: it is NaN when the residual sum of squares is zero as well, and NaN
    or infinite in every case.  The same holds for the [rsquared] of the
    statsmodels fit, which is computed by the same formula. *)
Theorem r_squared_zero_variation (y y_hat : list binary64) :
  is_zero (ss_tot y) = true ->
  (is_zero (ss_res y y_hat) = true -> is_nan (r_squared y y_hat) = true)
  /\ (is_nan (r_squared y y_hat) || is_inf (r_squared y y_hat) = true)
  /\ eqb (r_squared y y_hat) zero = false.
Proof.
  intros Htot. unfold r_squared.
  destruct (one_minus_ratio_by_zero (ss_res y y_hat) (ss_tot y) Htot)
    as [Hnan Hbad].
  split; [intros H; apply Hnan; now left|].
  split; [exact Hbad|].
  destruct (sub one (div (ss_res y y_hat) (ss_tot y))) as [s|s| |s m e];
    cbn in Hbad; try discriminate; try (destruct s; reflexivity); reflexivity.
Qed.

(** A constant response fitted exactly. *)
Lemma r_squared_zero_variation_witness :
  eqb (r_squared [of_Z 1; of_Z 1; of_Z 1] [of_Z 1; of_Z 1; of_Z 1]) zero
  = false.
Proof.
  apply (r_squared_zero_variation [of_Z 1; of_Z 1; of_Z 1]
           [of_Z 1; of_Z 1; of_Z 1]).
  reflexivity.
Defined.

(** C3, counterexample. With zero population coefficients (the slider
    defaults) and no disturbance the generated response is constant: its
    total variation is zero and the computed R squared is NaN, not 0. *)
Lemma r_squared_nan_without_variation :
  exists d,
    fst (gen_lin_data (L := Demo.still) (of_Z 0) (of_Z 0) (of_Z 1) 3 0
           Demo.before) = inr d
    /\ data_y d = [S754_zero false; S754_zero false; S754_zero false]
    /\ ss_tot (data_y d) = S754_zero false
    /\ r_squared (data_y d) (data_y_hat d) = S754_nan
    /\ rsquared (data_model d) = S754_nan
    /\ r_squared (data_y d) (data_y_hat d) <> zero.
Proof.
  eexists. split; [vm_compute; reflexivity|].
  repeat split; try (vm_compute; reflexivity).
  vm_compute. discriminate.
Qed.
End ZeroVariation.

(** ** The residual standard error *)

Section ResidualStdError.
Context {T : Type} {ST : Scalar T} {L : Library T}.

End ResidualStdError.



(** ** The intercept and R squared *)

Section Intercept.
Context {T : Type} {ST : Scalar T} {L : Library T}.

End Intercept.



(** ** A singular design *)

Section Singular.
Context {T : Type} {ST : Scalar T} {L : Library T}.

Lemma pinv_solve_length (y : list T) (X : list (list T)) :
  length (pinv_solve y X) = 2%nat.
Proof. unfold pinv_solve. destruct (eqb (gram_det X) zero); reflexivity. Qed.

Lemma design_constant (c : T) (us : list T) :
  Forall (fun u => regressor u = c) us ->
  design us = repeat [one; c] (length us).
Proof.
  induction 1 as [|u us Hu _ IH]; [reflexivity|].
  unfold design in *. cbn [map length repeat]. now rewrite Hu, IH.
Qed.

(** C9 (as the code behaves). If every regressor draw gives the same value
    c, so that the two columns of the design matrix are proportional and
    the matrix is singular, the routine raises no error: it returns a
    bundle holding that design matrix and two coefficient estimates.  This
    holds in every arithmetic; which numbers the estimates are is not part
    of it. *)
Theorem singular_design_no_error (b0 b1 sd c : T) (N rseed : Z)
                                 (g : rk_state L) :
  (1 <= N)%Z -> (0 <= rseed < 2 ^ 32)%Z -> signbit sd = false ->
  Forall (fun u => regressor u = c)
         (uniform_draws (L := L) (Z.to_nat N) rseed) ->
  exists d,
    fst (gen_lin_data b0 b1 sd N rseed g) = inr d
    /\ data_x d = repeat [one; c] (Z.to_nat N)
    /\ length (params (data_model d)) = 2%nat.
Proof.
  intros HN Hseed Hsd Hall.
  eexists. split; [apply gen_lin_data_returns; assumption|].
  unfold fitted_bundle, bundle, fit_results. cbn [data_x data_model params].
  split; [|apply pinv_solve_length].
  rewrite (design_constant c _ Hall). f_equal. apply uniform_draws_length.
Qed.
End Singular.

(** Every uniform draw is 1/8, every regressor is -15/2. *)
Lemma singular_design_no_error_witness :
  exists d,
    fst (gen_lin_data (L := Demo.level) (of_Z 1) (of_Z 2) (of_Z 1) 3 0
           Demo.before) = inr d
    /\ data_x d = repeat [one; Demo.ratio (-15) 2] 3.
Proof.
  destruct (singular_design_no_error (L := Demo.level)
              (of_Z 1) (of_Z 2) (of_Z 1) (Demo.ratio (-15) 2) 3 0 Demo.before)
    as [d [Hd [HX _]]]; [lia | lia | reflexivity | |].
  - vm_compute. repeat constructor.
  - exists d. split; [exact Hd | exact HX].
Defined.

(** ** The design and the draws over the reals *)

Section RealDesign.
Context {L : Library R}.
Local Open Scope R_scope.

Lemma design_rows (us : list R) : design us = rows (map regressor us).
Proof. unfold design, rows. now rewrite map_map. Qed.

Lemma column_1_rows (xs : list R) : column 1 (rows xs) = xs.
Proof.
  unfold column, rows. rewrite map_map. cbn [nth]. apply map_id.
Qed.

Lemma signbit_nonneg (sd : R) : 0 <= sd -> signbit sd = false.
Proof.
  intros H. cbn [signbit Scalar_R]. destruct (Rlt_dec sd 0); [lra | reflexivity].
Qed.

Lemma draws_nonempty (N rseed : Z) :
  (1 <= N)%Z -> uniform_draws (L := L) (Z.to_nat N) rseed <> [].
Proof.
  intros HN Hnil.
  pose proof (uniform_draws_length (L := L) (Z.to_nat N) rseed) as Hlen.
  rewrite Hnil in Hlen. simpl in Hlen. lia.
Qed.

Lemma draws_same_length (N rseed : Z) :
  length (normal_draws (L := L) (Z.to_nat N) rseed)
  = length (uniform_draws (L := L) (Z.to_nat N) rseed).
Proof. now rewrite normal_draws_length, uniform_draws_length. Qed.
End RealDesign.

(** ** The order of the plotted data *)

Section Argsort.
Context {T : Type} {ST : Scalar T}.

Lemma take_seq (a : list T) : take a (seq 0 (length a)) = a.
Proof.
  unfold take. induction a as [|v a IH]; [reflexivity|].
  cbn [length seq map nth]. f_equal.
  rewrite <- seq_shift, map_map. exact IH.
Qed.

Lemma insert_index_permutation (a : list T) (i : nat) (idx : list nat) :
  Permutation (insert_index a i idx) (i :: idx).
Proof.
  induction idx as [|j rest IH]; cbn [insert_index]; [reflexivity|].
  destruct (leb (nth i a zero) (nth j a zero)); [reflexivity|].
  rewrite IH. apply perm_swap.
Qed.

Lemma np_argsort_permutation (a : list T) :
  Permutation (np_argsort a) (seq 0 (length a)).
Proof.
  unfold np_argsort. induction (seq 0 (length a)) as [|i l IH];
    cbn [fold_right]; [reflexivity|].
  rewrite insert_index_permutation. now constructor.
Qed.

Lemma take_argsort_permutation (a b : list T) :
  length b = length a -> Permutation (take b (np_argsort a)) b.
Proof.
  intros Hlen. rewrite <- (take_seq b) at 2. rewrite Hlen.
  unfold take. apply Permutation_map. apply np_argsort_permutation.
Qed.

(** Sortedness needs the comparison to be total on the values compared. *)
Hypothesis leb_total : forall x y : T, leb x y = false -> leb y x = true.

Lemma insert_index_ascending (a : list T) (i : nat) (idx : list nat) :
  ascending (take a idx) = true ->
  ascending (take a (insert_index a i idx)) = true.
Proof.
  unfold take. induction idx as [|j rest IH]; intros Hs;
    cbn [insert_index]; [reflexivity|].
  destruct (leb (nth i a zero) (nth j a zero)) eqn:Hij.
  - cbn [map ascending] in *. rewrite Hij. exact Hs.
  - destruct rest as [|k rest].
    + cbn [insert_index map ascending]. now rewrite (leb_total _ _ Hij).
    + cbn [map ascending] in Hs. apply andb_true_iff in Hs.
      destruct Hs as [Hjk Hrest]. specialize (IH Hrest).
      cbn [insert_index] in *.
      destruct (leb (nth i a zero) (nth k a zero)) eqn:Hik;
        cbn [map ascending] in *.
      * rewrite (leb_total _ _ Hij), Hik. exact Hrest.
      * rewrite Hjk. exact IH.
Qed.

Lemma np_argsort_ascending (a : list T) :
  ascending (take a (np_argsort a)) = true.
Proof.
  unfold np_argsort. induction (seq 0 (length a)) as [|i l IH];
    cbn [fold_right]; [reflexivity|].
  now apply insert_index_ascending.
Qed.
End Argsort.

Lemma leb_total_R (x y : R) : leb x y = false -> leb y x = true.
Proof.
  cbn [leb Scalar_R]. destruct (Rle_dec x y), (Rle_dec y x);
    try reflexivity; try discriminate. lra.
Qed.

(** C4 (as the code behaves). For every dataset, the band handed to
    [fill_between] is ordered by x ascending: its x values are sorted, they
    are the regressors rearranged, and the lower and upper limits are
    rearranged by the same positions.  The fitted line is handed to [plot]
    in the order the regressors were drawn. *)
Theorem plot_ols_band_sorted (data_custom : data R) (b0 b1 : R) :
  let fig := plot_ols data_custom b0 b1 in
  let x := column 1 (data_x data_custom) in
  let sorted_x := fst (fst (ax_fill_between fig)) in
  ascending sorted_x = true
  /\ Permutation sorted_x x
  /\ (exists idx,
        Permutation idx (seq 0 (length x))
        /\ ax_fill_between fig
           = (take x idx,
              take (column 0 (data_ci data_custom)) idx,
              take (column 1 (data_ci data_custom)) idx))
  /\ ax_plot fig = (x, data_y_hat data_custom).
Proof.
  cbv zeta. unfold plot_ols. cbn [ax_fill_between ax_plot fst].
  split; [|split; [|split]].
  - apply np_argsort_ascending. exact leb_total_R.
  - now apply take_argsort_permutation.
  - exists (np_argsort (column 1 (data_x data_custom))).
    split; [apply np_argsort_permutation | reflexivity].
  - reflexivity.
Qed.

(** C4, counterexample. For the draws 3/4, 1/4, 1/2 the regressors are
    5, -5, 0, and the fitted line is handed over in that order, which is not
    ascending. *)
Lemma fitted_line_unsorted :
  exists d,
    fst (gen_lin_data (L := Demo.spread) (of_Z 1) (of_Z 2) (of_Z 1) 3 0
           Demo.before) = inr d
    /\ map fst (fitted_line (plot_ols d (of_Z 1) (of_Z 2)))
       = [of_Z 5; of_Z (-5); of_Z 0]
    /\ ascending (map fst (fitted_line (plot_ols d (of_Z 1) (of_Z 2)))) = false.
Proof.
  eexists. split; [vm_compute; reflexivity|].
  split; vm_compute; reflexivity.
Qed.

(** C9, counterexample. When every regressor draw is 1/2 the design matrix
    has the column 0 next to the column of ones and is singular; the routine
    raises nothing and returns a bundle. *)
Lemma singular_design_returns :
  exists d,
    fst (gen_lin_data (L := Demo.flat) (of_Z 1) (of_Z 2) (of_Z 1) 3 0
           Demo.before) = inr d
    /\ data_x d = [[of_Z 1; of_Z 0]; [of_Z 1; of_Z 0]; [of_Z 1; of_Z 0]]
    /\ gram_det (data_x d) = of_Z 0.
Proof.
  eexists. split; [vm_compute; reflexivity|].
  split; vm_compute; reflexivity.
Qed.

(** ** An accepted call over the reals *)

Module RealWitnesses.
Local Open Scope R_scope.

Lemma accepted (b0 : R) :
  fst (gen_lin_data (L := DemoR.spread) b0 2 1 3 0 DemoR.before)
  = inr (fitted_bundle (L := DemoR.spread) b0 2 1
           (uniform_draws (L := DemoR.spread) 3 0)
           (normal_draws (L := DemoR.spread) 3 0)).
Proof.
  apply (gen_lin_data_returns (L := DemoR.spread) b0 2 1 3 0 DemoR.before);
    [lia | lia | apply signbit_nonneg; lra].
Qed.

End RealWitnesses.

(** * The regressors and the axes of the plot *)

Section FitFacts.
Context {L : Library R}.
Local Open Scope R_scope.

(** X6. When the generator's uniform draws lie in [0, 1), every regressor of
    the returned bundle lies in [-10, 10), strictly inside the x-limits
    [-11, 11] of the plot. *)
Theorem regressors_inside_xlim (b0 b1 sd : R) (N rseed : Z) (g : rk_state L)
                               (d : data R) :
  fst (gen_lin_data b0 b1 sd N rseed g) = inr d ->
  Forall (fun u => 0 <= u < 1) (uniform_draws (L := L) (Z.to_nat N) rseed) ->
  Forall (fun x => -10 <= x < 10
                   /\ fst Rendering.plot_xlim < x < snd Rendering.plot_xlim)
         (column 1 (data_x d)).
Proof.
  intros Hd Hu.
  apply gen_lin_data_returned in Hd. destruct Hd as [_ [_ [_ ->]]].
  unfold fitted_bundle, bundle. cbn [data_x].
  rewrite design_rows, column_1_rows.
  apply Forall_map. eapply Forall_impl; [|exact Hu].
  intros u Hu01. unfold regressor, Rendering.plot_xlim.
  cbn [fst snd of_Z add sub mul Scalar_R]. lra.
Qed.

End FitFacts.

(** ** An instance *)

Module FitWitnesses.
Local Open Scope R_scope.

Lemma regressors_inside_xlim_witness :
  exists d,
    fst (gen_lin_data (L := DemoR.spread) 1 2 1 3 0 DemoR.before) = inr d
    /\ Forall (fun x => -10 <= x < 10
                        /\ fst Rendering.plot_xlim < x < snd Rendering.plot_xlim)
              (column 1 (data_x d)).
Proof.
  eexists. split; [apply (RealWitnesses.accepted 1)|].
  apply (regressors_inside_xlim (L := DemoR.spread) 1 2 1 3 0 DemoR.before).
  - apply (RealWitnesses.accepted 1).
  - unfold uniform_draws. change (Z.to_nat 3) with 3%nat. cbn.
    repeat (apply Forall_cons; [lra|]). apply Forall_nil.
Defined.

End FitWitnesses.

(** * What the page shows *)

Section Shown.
Context {T : Type} {ST : Scalar T} {L : Library T}.

Lemma column_length (j : nat) (X : list (list T)) :
  length (column j X) = length X.
Proof. apply length_map. Qed.

Lemma take_length (a : list T) (idx : list nat) :
  length (take a idx) = length idx.
Proof. apply length_map. Qed.

Lemma np_argsort_length (a : list T) : length (np_argsort a) = length a.
Proof.
  rewrite (Permutation_length (np_argsort_permutation a)). apply length_seq.
Qed.

(** X8. For every bundle the routine returns, all the arrays [plot_ols]
    hands to [scatter], [plot] and [fill_between] have N entries: no drawing
    call receives arrays of different lengths. *)
Theorem plot_ols_array_lengths (b0 b1 sd : T) (N rseed : Z) (g : rk_state L)
                               (d : data T) (p0 p1 : T) :
  fst (gen_lin_data b0 b1 sd N rseed g) = inr d ->
  let fig := plot_ols d p0 p1 in
  Forall (fun a => Z.of_nat (length a) = N)
    [fst (ax_scatter fig); snd (ax_scatter fig);
     fst (ax_plot fig); snd (ax_plot fig);
     fst (fst (ax_fill_between fig)); snd (fst (ax_fill_between fig));
     snd (ax_fill_between fig)].
Proof.
  intros Hd. cbv zeta.
  apply gen_lin_data_returned in Hd. destruct Hd as [HN [_ [_ ->]]].
  pose proof (uniform_draws_length (L := L) (Z.to_nat N) rseed) as Hus.
  pose proof (normal_draws_length (L := L) (Z.to_nat N) rseed) as Hzs.
  destruct (fitted_bundle_shapes b0 b1 sd
              (uniform_draws (Z.to_nat N) rseed)
              (normal_draws (Z.to_nat N) rseed))
    as [Hy [Hyhat [Hci [_ [HX _]]]]].
  { intros Hnil. rewrite Hnil in Hus. simpl in Hus. lia. }
  { congruence. }
  set (d := fitted_bundle b0 b1 sd _ _) in *.
  assert (HXn : length (data_x d) = Z.to_nat N).
  { unfold d, fitted_bundle, bundle. cbn [data_x].
    rewrite design_length. exact Hus. }
  unfold plot_ols. cbn [ax_scatter ax_plot ax_fill_between fst snd].
  repeat constructor;
    rewrite ?take_length, ?np_argsort_length, ?column_length,
            ?Hy, ?Hyhat, ?Hci, ?HXn, ?Hus; lia.
Qed.

End Shown.

(** * The page across interactions *)

Section Interactions.
Context {T : Type} {ST : Scalar T} {L : Library T}.

(** X12. Resampling never breaks a working page: when the data for seed 0
    could be generated, every resample that completes shows a bundle again,
    with as many observations. *)
Theorem resample_keeps_page_working
    (b0_cust b1_cust var_cust : T) (n_cust : Z) (words : list Z)
    (g : rk_state L) (d0 : data T) (w : session L) :
  fst (gen_lin_data b0_cust b1_cust var_cust n_cust 0 g) = inr d0 ->
  run_page b0_cust b1_cust var_cust n_cust true words g = Some w ->
  exists d,
    custom_data w = inr d
    /\ length (data_y d) = length (data_y d0)
    /\ Z.of_nat (length (data_y d)) = n_cust.
Proof.
  intros Hd0 Hrun. unfold run_page in Hrun.
  destruct (gen_lin_data b0_cust b1_cust var_cust n_cust 0 g) as [r0 g0] eqn:H0.
  simpl in Hd0. subst r0.
  assert (Hd0 : fst (gen_lin_data b0_cust b1_cust var_cust n_cust 0 g) = inr d0)
    by now rewrite H0.
  apply gen_lin_data_returned in Hd0. destruct Hd0 as [HN [_ [Hsd Hd0]]].
  destruct (PyRandom.randint 0 10000 words) as [[[e|s] words']|] eqn:Hr;
    [ now apply PyRandomFacts.randint_never_raises in Hr | | discriminate ].
  apply PyRandomFacts.randint_range in Hr.
  assert (Hs : fst (gen_lin_data b0_cust b1_cust var_cust n_cust s g0)
               = inr (fitted_bundle b0_cust b1_cust var_cust
                        (uniform_draws (Z.to_nat n_cust) s)
                        (normal_draws (Z.to_nat n_cust) s))).
  { apply gen_lin_data_returns; [exact HN | lia | exact Hsd]. }
  destruct (gen_lin_data b0_cust b1_cust var_cust n_cust s g0) as [r1 g1].
  simpl in Hs. subst r1. injection Hrun as <-. cbn [custom_data].
  eexists. split; [reflexivity|].
  assert (Hlen : forall seed,
             length (data_y (fitted_bundle (L := L) b0_cust b1_cust var_cust
                               (uniform_draws (Z.to_nat n_cust) seed)
                               (normal_draws (Z.to_nat n_cust) seed)))
             = Z.to_nat n_cust).
  { intros seed. unfold fitted_bundle, bundle. cbn [data_y].
    rewrite response_length
      by now rewrite normal_draws_length, uniform_draws_length.
    apply uniform_draws_length. }
  subst d0. rewrite !Hlen. split; [reflexivity | lia].
Qed.

End Interactions.

Lemma accepted_binary64 :
  fst (gen_lin_data (L := Demo.spread) (of_Z 1) (of_Z 2) (of_Z 1) 3 0
         Demo.before)
  = inr (fitted_bundle (L := Demo.spread) (of_Z 1) (of_Z 2) (of_Z 1)
           (uniform_draws (L := Demo.spread) 3 0)
           (normal_draws (L := Demo.spread) 3 0)).
Proof.
  apply (gen_lin_data_returns (L := Demo.spread)
           (of_Z 1) (of_Z 2) (of_Z 1) 3 0 Demo.before);
    [lia | lia | reflexivity].
Qed.

Lemma plot_ols_array_lengths_witness :
  exists d,
    fst (gen_lin_data (L := Demo.spread) (of_Z 1) (of_Z 2) (of_Z 1) 3 0
           Demo.before) = inr d
    /\ Forall (fun a => Z.of_nat (length a) = 3%Z)
         [fst (ax_scatter (plot_ols d (of_Z 1) (of_Z 2)));
          snd (ax_scatter (plot_ols d (of_Z 1) (of_Z 2)));
          fst (ax_plot (plot_ols d (of_Z 1) (of_Z 2)));
          snd (ax_plot (plot_ols d (of_Z 1) (of_Z 2)));
          fst (fst (ax_fill_between (plot_ols d (of_Z 1) (of_Z 2))));
          snd (fst (ax_fill_between (plot_ols d (of_Z 1) (of_Z 2))));
          snd (ax_fill_between (plot_ols d (of_Z 1) (of_Z 2)))].
Proof.
  eexists. split; [apply accepted_binary64|].
  apply (plot_ols_array_lengths (L := Demo.spread)
           (of_Z 1) (of_Z 2) (of_Z 1) 3 0 Demo.before).
  apply accepted_binary64.
Defined.

(** The word 4242 * 2^18 on the page at three observations. *)
Lemma resample_keeps_page_working_witness :
  exists w d,
    run_page (L := Demo.spread) (of_Z 1) (of_Z 2) (of_Z 1) 3 true
      [1112014848%Z] Demo.before = Some w
    /\ custom_data w = inr d
    /\ Z.of_nat (length (data_y d)) = 3%Z.
Proof.
  eexists.
  assert (Hrun : run_page (L := Demo.spread) (of_Z 1) (of_Z 2) (of_Z 1) 3 true
                   [1112014848%Z] Demo.before = Some ?[w])
    by (vm_compute; reflexivity).
  destruct (resample_keeps_page_working (L := Demo.spread)
              (of_Z 1) (of_Z 2) (of_Z 1) 3 [1112014848%Z] Demo.before
              _ _ accepted_binary64 Hrun)
    as [d [Hd [_ Hn]]].
  exists d. split; [exact Hrun|]. split; assumption.
Defined.

(** * The code of the "Code numpy" tabs *)

Section SnippetFacts.
Context {L : Library R}.
Local Open Scope R_scope.

(** X15. The adjusted R squared of the second code tab never exceeds the R
    squared it adjusts, for 1 <= K < n and an R squared of at most 1; when
    n = K the quotient of integers raises ZeroDivisionError. *)
Theorem adjusted_r_squared_below (n K : Z) (r_sq : R) :
  (1 <= K < n)%Z -> r_sq <= 1 ->
  (exists r_sq_adj,
      snippet_r_sq_adj n K r_sq = Some r_sq_adj /\ r_sq_adj <= r_sq)
  /\ snippet_r_sq_adj K K r_sq = None.
Proof.
  intros HK Hr. split.
  - unfold snippet_r_sq_adj.
    replace (n - K =? 0)%Z with false by (symmetry; apply Z.eqb_neq; lia).
    eexists. split; [reflexivity|].
    unfold one. cbn [of_Z sub mul div Scalar_R].
    assert (HB : 0 < IZR (n - K)) by (apply IZR_lt; lia).
    assert (HAB : IZR (n - K) <= IZR (n - 1)) by (apply IZR_le; lia).
    assert (Hratio : 1 <= IZR (n - 1) / IZR (n - K)).
    { apply (Rmult_le_reg_r (IZR (n - K))); [exact HB|].
      unfold Rdiv. rewrite Rmult_assoc, Rinv_l by lra. lra. }
    set (q := IZR (n - 1) / IZR (n - K)) in *. clearbody q. nra.
  - unfold snippet_r_sq_adj. now rewrite Z.sub_diag.
Qed.

(** X16. The prediction criterion of the second code tab is
    SSE / (n - K) * (1 + K / n), the first expression of the theory tab;
    the theory tab's last expression, SSE * (n + K) / (n - K), is n times
    larger. *)
Theorem snippet_APC_formula (e : list R) (n K : Z) :
  n <> 0%Z -> n <> K ->
  snippet_APC e n K = snippet_SSE e / IZR (n - K) * (1 + IZR K / IZR n)
  /\ snippet_SSE e * IZR (n + K) / IZR (n - K) = IZR n * snippet_APC e n K.
Proof.
  intros Hn HnK. unfold snippet_APC, snippet_SSE.
  cbn [of_Z mul div Scalar_R]. rewrite plus_IZR, minus_IZR.
  assert (Hn' : IZR n <> 0) by (apply not_0_IZR; exact Hn).
  assert (HnK' : IZR n - IZR K <> 0).
  { rewrite <- minus_IZR. apply not_0_IZR. lia. }
  set (sse := inner e e). clearbody sse. split; field; now split.
Qed.
End SnippetFacts.

Module CriteriaFacts.
Import SnippetsR.
Local Open Scope R_scope.



End CriteriaFacts.

Module SnippetWitnesses.
Local Open Scope R_scope.

(** Ten observations, two coefficients, R squared 1/2. *)
Lemma adjusted_r_squared_below_witness :
  (exists r_sq_adj,
      snippet_r_sq_adj 10 2 (1 / 2) = Some r_sq_adj /\ r_sq_adj <= 1 / 2)
  /\ snippet_r_sq_adj 2 2 (1 / 2) = None.
Proof. apply (adjusted_r_squared_below 10 2 (1 / 2)); [lia | lra]. Defined.

Lemma snippet_APC_formula_witness :
  snippet_APC [1; -1] 10 2
  = snippet_SSE [1; -1] / IZR (10 - 2) * (1 + IZR 2 / IZR 10)
  /\ snippet_SSE [1; -1] * IZR (10 + 2) / IZR (10 - 2)
     = IZR 10 * snippet_APC [1; -1] 10 2.
Proof. apply (snippet_APC_formula [1; -1] 10 2); lia. Defined.
End SnippetWitnesses.

(** * The page at the slider values *)

Section SliderRuns.
Context {L : Library R}.
Local Open Scope R_scope.

(** A run of the script on arguments numpy accepts ends with the bundle of
    the seed it ends with. *)
Lemma run_page_bundle (b0_cust b1_cust var_cust : R) (n_cust : Z)
                      (button : bool) (words : list Z) (g : rk_state L)
                      (w : session L) :
  (1 <= n_cust)%Z -> 0 <= var_cust ->
  run_page b0_cust b1_cust var_cust n_cust button words g = Some w ->
  (0 <= random_seed w <= 10000)%Z
  /\ custom_data w
     = inr (fitted_bundle b0_cust b1_cust var_cust
              (uniform_draws (Z.to_nat n_cust) (random_seed w))
              (normal_draws (Z.to_nat n_cust) (random_seed w))).
Proof.
  intros Hn Hvar Hrun.
  assert (Hgen : forall s g1, (0 <= s <= 10000)%Z ->
             fst (gen_lin_data b0_cust b1_cust var_cust n_cust s g1)
             = inr (fitted_bundle b0_cust b1_cust var_cust
                      (uniform_draws (Z.to_nat n_cust) s)
                      (normal_draws (Z.to_nat n_cust) s))).
  { intros s g1 Hs.
    apply gen_lin_data_returns; [exact Hn | lia | now apply signbit_nonneg]. }
  unfold run_page in Hrun.
  pose proof (Hgen 0%Z g ltac:(lia)) as H0.
  destruct (gen_lin_data b0_cust b1_cust var_cust n_cust 0 g) as [r0 g0].
  simpl in H0. subst r0.
  destruct button.
  - destruct (PyRandom.randint 0 10000 words) as [[[e|s] words']|] eqn:Hr;
      [ now apply PyRandomFacts.randint_never_raises in Hr | | discriminate ].
    apply PyRandomFacts.randint_range in Hr.
    pose proof (Hgen s g0 Hr) as H1.
    destruct (gen_lin_data b0_cust b1_cust var_cust n_cust s g0) as [r1 g1].
    simpl in H1. subst r1. injection Hrun as <-.
    cbn [random_seed custom_data]. split; [exact Hr | reflexivity].
  - injection Hrun as <-. cbn [random_seed custom_data].
    split; [lia | reflexivity].
Qed.

(** X18. For all values the four sliders can take, no run of the script
    that completes, with or without the resample button, ends in an
    exception: it shows a bundle with n observations, and the degrees of
    freedom n - 2 used for the residual standard error are at least 8. *)
Theorem page_never_raises (b0_cust b1_cust var_cust : R) (n_cust : Z)
                          (button : bool) (words : list Z) (g : rk_state L)
                          (w : session L) :
  Sliders.slider_values b0_cust b1_cust var_cust n_cust ->
  run_page b0_cust b1_cust var_cust n_cust button words g = Some w ->
  exists d,
    custom_data w = inr d
    /\ shape (data_x d) = (n_cust, 2%Z)
    /\ (8 <= fst (shape (data_x d)) - snd (shape (data_x d)))%Z
    /\ data_s d
       = sqrt (np_sum (square (residuals (data_y d) (data_y_hat d)))
               / IZR (n_cust - 2)).
Proof.
  intros [_ [_ [[Hvar _] [Hn _]]]] Hrun.
  apply run_page_bundle in Hrun; [|lia|lra].
  destruct Hrun as [_ Hdata].
  set (s := random_seed w) in *.
  eexists. split; [exact Hdata|].
  pose proof (uniform_draws_length (L := L) (Z.to_nat n_cust) s) as Hus.
  assert (Hne : uniform_draws (L := L) (Z.to_nat n_cust) s <> [])
    by (apply draws_nonempty; lia).
  destruct (fitted_bundle_shapes (L := L) b0_cust b1_cust var_cust
              (uniform_draws (Z.to_nat n_cust) s)
              (normal_draws (Z.to_nat n_cust) s) Hne
              (draws_same_length n_cust s))
    as [_ [_ [_ [_ [HX _]]]]].
  cbv zeta in HX. rewrite Hus, Z2Nat.id in HX by lia.
  rewrite HX. cbn [fst snd].
  split; [reflexivity|]. split; [lia|].
  rewrite (fitted_bundle_std_error (L := L) b0_cust b1_cust var_cust _ _ Hne).
  cbv zeta. now rewrite Hus, Z2Nat.id by lia.
Qed.
End SliderRuns.

Module SliderWitnesses.
Local Open Scope R_scope.

(** The default slider values, 0, 0, 10 and 500, without resampling. *)
Lemma page_never_raises_witness :
  exists w d,
    run_page (L := DemoR.spread) 0 0 10 500 false [] DemoR.before = Some w
    /\ custom_data w = inr d
    /\ shape (data_x d) = (500%Z, 2%Z).
Proof.
  assert (Hv : Sliders.slider_values 0 0 10 500).
  { unfold Sliders.slider_values, Sliders.in_range.
    repeat split; try lra; lia. }
  assert (Hrun : exists w,
             run_page (L := DemoR.spread) 0 0 10 500 false [] DemoR.before
             = Some w).
  { unfold run_page.
    destruct (gen_lin_data (L := DemoR.spread) 0 0 10 500 0 DemoR.before)
      as [[e|d0] g0]; eexists; reflexivity. }
  destruct Hrun as [w Hrun].
  destruct (page_never_raises (L := DemoR.spread) 0 0 10 500 false []
              DemoR.before w Hv Hrun) as [d [Hd [Hs _]]].
  exists w, d. repeat split; assumption.
Defined.
End SliderWitnesses.
